(** * lexe-wrapper: the command-line front end [cli.py]

    A shallow embedding of [main] from [cli.py].  [main] parses the command
    line, builds a [LexeManager] and dispatches one of six commands to it,
    turning results and exceptions into an exit code.

    The manager class lives in the [lexe_wrapper] package; [main] only sees
    its constructor, two attributes and six methods.  The embedding therefore
    takes the manager as an interface over an abstract world [W]: every
    method is a state transformer that returns a value or raises.  Whatever
    [main] does to the outside (printing, calling the manager) is appended to
    a trace, so that statements such as "start_sidecar is never called" are
    statements about that trace. *)

From Stdlib Require Import ZArith List String Ascii Bool Lia DecimalString.
Import ListNotations.

Open Scope string_scope.
Open Scope Z_scope.

(** ** Python exceptions *)

(** The part of Python's exception hierarchy that the handlers of [main] can
    tell apart, closed under user-defined subclassing. *)
Inductive pyclass : Type :=
| BaseException
| SystemExit
| KeyboardInterrupt
| GeneratorExit
| Exception
| ValueError
| UnicodeError
| TypeError
| RuntimeError
| OSError
| ConnectionError
| TimeoutError
| Subclass (name : string) (base : pyclass).

Definition pyclass_eq_dec (c d : pyclass) : {c = d} + {c <> d}.
Proof. decide equality. apply string_dec. Defined.

Definition pyclass_eqb (c d : pyclass) : bool :=
  if pyclass_eq_dec c d then true else false.

(** Method resolution order: the class followed by its ancestors. *)
Fixpoint mro (c : pyclass) : list pyclass :=
  match c with
  | BaseException => [BaseException]
  | SystemExit => [SystemExit; BaseException]
  | KeyboardInterrupt => [KeyboardInterrupt; BaseException]
  | GeneratorExit => [GeneratorExit; BaseException]
  | Exception => [Exception; BaseException]
  | ValueError => [ValueError; Exception; BaseException]
  | UnicodeError => [UnicodeError; ValueError; Exception; BaseException]
  | TypeError => [TypeError; Exception; BaseException]
  | RuntimeError => [RuntimeError; Exception; BaseException]
  | OSError => [OSError; Exception; BaseException]
  | ConnectionError => [ConnectionError; OSError; Exception; BaseException]
  | TimeoutError => [TimeoutError; OSError; Exception; BaseException]
  | Subclass name base => Subclass name base :: mro base
  end.

Definition issubclass (c d : pyclass) : bool :=
  existsb (pyclass_eqb d) (mro c).

(** A raised exception: its class and what [str(e)] gives. *)
Record exn : Type := mkExn { exn_type : pyclass; exn_str : string }.

Definition isinstance (e : exn) (c : pyclass) : bool :=
  issubclass (exn_type e) c.

(** What the two handlers around the command block catch. *)
Definition caught_by_main (e : exn) : bool :=
  isinstance e KeyboardInterrupt || isinstance e Exception.

Inductive result (A : Type) : Type :=
| Ok (a : A)
| Raise (e : exn).
Arguments Ok {A} a.
Arguments Raise {A} e.

(** ** Observable behaviour *)

Inductive stream : Type := stdout | stderr.

(** The methods of the manager that [main] calls, with their arguments. *)
Inductive call : Type :=
| DownloadSidecarBinary
| StartSidecar (wait_for_health : bool) (health_timeout : Z)
| StopSidecar
| IsRunning
| CheckHealth
| GetNodeInfo.

Inductive event : Type :=
| Print (file : stream) (text : string)
| SetLevelDebug
| Construct (client_credentials : option string) (port : Z)
| Invoke (c : call).

Definition is_invoke (ev : event) : bool :=
  match ev with Invoke _ => true | _ => false end.

Definition is_start_sidecar (ev : event) : bool :=
  match ev with Invoke (StartSidecar _ _) => true | _ => false end.

(** ** The effect monad: world, trace, exceptions *)

Section Monad.
Context {W : Type}.

Definition M (A : Type) : Type := W * list event -> result A * (W * list event).

Definition ret {A} (a : A) : M A := fun s => (Ok a, s).

Definition bind {A B} (m : M A) (f : A -> M B) : M B :=
  fun s =>
    match m s with
    | (Ok a, s') => f a s'
    | (Raise e, s') => (Raise e, s')
    end.

Definition emit (ev : event) : M unit :=
  fun s => (Ok tt, (fst s, (snd s ++ [ev])%list)).

(** [print(text, file=f)] *)
Definition print (f : stream) (text : string) : M unit := emit (Print f text).

(** A call that leaves [main]: recorded, then run on the world. *)
Definition perform {A} (ev : event) (op : W -> result A * W) : M A :=
  fun s =>
    let (r, w') := op (fst s) in (r, (w', (snd s ++ [ev])%list)).

(** A library function without effects that may raise. *)
Definition lift {A} (r : result A) : M A := fun s => (r, s).

(** [except C as e: h e] clauses, tried in order. *)
Fixpoint select_clause {A} (clauses : list (pyclass * (exn -> M A))) (e : exn)
  : option (M A) :=
  match clauses with
  | [] => None
  | (c, h) :: rest => if isinstance e c then Some (h e) else select_clause rest e
  end.

Definition try_except {A} (body : M A) (clauses : list (pyclass * (exn -> M A)))
  : M A :=
  fun s =>
    match body s with
    | (Ok a, s') => (Ok a, s')
    | (Raise e, s') =>
        match select_clause clauses e with
        | Some h => h s'
        | None => (Raise e, s')
        end
    end.
End Monad.
Arguments M W A : clear implicits.

Declare Scope py_scope.
Delimit Scope py_scope with py.
Notation "x <- c ;; k" := (bind c (fun x => k))
  (at level 61, c at next level, right associativity) : py_scope.
Notation "c ;; k" := (bind c (fun _ => k))
  (at level 61, right associativity) : py_scope.
Open Scope py_scope.

(** ** The manager as [main] sees it *)

(** [V] is the type of the value [get_node_info()] returns. *)
Record LexeManager (W V : Type) : Type := {
  client_credentials : option string;
  base_url : string;
  download_sidecar_binary : W -> result string * W;
  start_sidecar : bool -> Z -> W -> result bool * W;
  stop_sidecar : W -> result bool * W;
  is_running : W -> result bool * W;
  check_health : W -> result bool * W;
  get_node_info : W -> result V * W
}.
Arguments client_credentials {W V} _.
Arguments base_url {W V} _.
Arguments download_sidecar_binary {W V} _ _.
Arguments start_sidecar {W V} _ _ _ _.
Arguments stop_sidecar {W V} _ _.
Arguments is_running {W V} _ _.
Arguments check_health {W V} _ _.
Arguments get_node_info {W V} _ _.

(** What [main] imports: the constructor [LexeManager(client_credentials=, port=)]
    and [json.dumps(_, indent=2)]. *)
Record Imports (W V : Type) : Type := {
  LexeManager_new : option string -> Z -> W -> result (LexeManager W V) * W;
  json_dumps : V -> result string
}.
Arguments LexeManager_new {W V} _ _ _ _.
Arguments json_dumps {W V} _ _.

(** Truth value of [manager.client_credentials]: [None] and [""] are falsy. *)
Definition truthy (o : option string) : bool :=
  match o with
  | None => false
  | Some s => negb (String.eqb s "")
  end.

(** [str(n)] for an [int]. *)
Definition str_int (n : Z) : string := NilZero.string_of_int (Z.to_int n).

(** ** Command line *)

Inductive command_choice : Type :=
| start | stop | status | node_info | download | health.

(** What the user wrote: the positional command and the options given. *)
Record CommandLine : Type := {
  given_command : command_choice;
  given_credentials : option string;
  given_port : option Z;
  given_timeout : option Z;
  given_no_wait : bool;
  given_verbose : bool
}.

(** The namespace [parser.parse_args()] returns. *)
Record Namespace : Type := {
  command : command_choice;
  credentials : option string;
  port : Z;
  timeout : Z;
  no_wait : bool;
  verbose : bool
}.

Definition default {A} (d : A) (o : option A) : A :=
  match o with Some a => a | None => d end.

Definition parse_args (cl : CommandLine) : Namespace := {|
  command := given_command cl;
  credentials := given_credentials cl;
  port := default 5393 (given_port cl);
  timeout := default 30 (given_timeout cl);
  no_wait := given_no_wait cl;
  verbose := given_verbose cl
|}.

(** ** [main] *)

Definition newline : string := String (ascii_of_nat 10) EmptyString.

Definition credentials_required : string :=
  "Error: Client credentials are required. Set LEXE_CLIENT_CREDENTIALS or use --credentials".

Section Main.
Context {W V : Type}.
Variable py : Imports W V.

(** The two assignments that open the [status] branch:
    [(is_running, is_healthy)]. *)
Definition status_flags (manager : LexeManager W V) : M W (bool * bool) :=
  running <- perform (Invoke IsRunning) (is_running manager) ;;
  healthy <- (if running : bool
              then perform (Invoke CheckHealth) (check_health manager)
              else ret false) ;;
  ret (running, healthy).

(** The body of the [if]/[elif] chain.  [Some c] stands for [return c]
    inside the chain, [None] for reaching its end. *)
Definition dispatch (args : Namespace) (manager : LexeManager W V)
  : M W (option Z) :=
  match command args with
  | download =>
      print stdout "Downloading Lexe sidecar binary..." ;;
      binary_path <- perform (Invoke DownloadSidecarBinary)
                             (download_sidecar_binary manager) ;;
      print stdout ("✓ Binary ready at: " ++ binary_path) ;;
      ret None
  | start =>
      if negb (truthy (client_credentials manager)) then
        print stderr credentials_required ;;
        ret (Some 1)
      else
        print stdout "Starting Lexe sidecar..." ;;
        started <- perform
          (Invoke (StartSidecar (negb (no_wait args)) (timeout args)))
          (start_sidecar manager (negb (no_wait args)) (timeout args)) ;;
        if started : bool then
          print stdout ("✓ Sidecar started successfully on port "
                        ++ str_int (port args)) ;;
          (if negb (no_wait args)
           then print stdout "✓ Health check passed"
           else ret tt) ;;
          ret None
        else
          print stderr "✗ Failed to start sidecar" ;;
          ret (Some 1)
  | stop =>
      print stdout "Stopping Lexe sidecar..." ;;
      stopped <- perform (Invoke StopSidecar) (stop_sidecar manager) ;;
      if stopped : bool then
        print stdout "✓ Sidecar stopped" ;;
        ret None
      else
        print stderr "✗ Failed to stop sidecar" ;;
        ret (Some 1)
  | status =>
      flags <- status_flags manager ;;
      let (running, healthy) := flags : bool * bool in
      print stdout ("Sidecar process: "
                    ++ (if running then "Running" else "Not running")) ;;
      (if running then
         print stdout ("Health status: "
                       ++ (if healthy then "Healthy" else "Unhealthy")) ;;
         print stdout ("URL: " ++ base_url manager)
       else ret tt) ;;
      ret None
  | health =>
      healthy <- perform (Invoke CheckHealth) (check_health manager) ;;
      if healthy : bool then
        print stdout "✓ Sidecar is healthy" ;;
        ret None
      else
        print stdout "✗ Sidecar is not healthy" ;;
        ret (Some 1)
  | node_info =>
      try_except
        (info <- perform (Invoke GetNodeInfo) (get_node_info manager) ;;
         print stdout "Node Information:" ;;
         text <- lift (json_dumps py info) ;;
         print stdout text ;;
         ret None)
        [(Exception, fun e =>
            print stderr ("✗ Failed to get node info: " ++ exn_str e) ;;
            ret (Some 1))]
  end.

(** The second [try]: the chain, then [return 0]. *)
Definition execute (args : Namespace) (manager : LexeManager W V) : M W Z :=
  try_except
    (r <- dispatch args manager ;;
     match r with
     | Some code => ret code
     | None => ret 0
     end)
    [(KeyboardInterrupt, fun _ =>
        print stdout (newline ++ "Interrupted by user") ;;
        ret 1);
     (Exception, fun e =>
        print stderr ("Error: " ++ exn_str e) ;;
        ret 1)].

(** The first [try]: [inl manager] on success, [inr 1] for [return 1]. *)
Definition initialize (args : Namespace) : M W (LexeManager W V + Z) :=
  try_except
    (manager <- perform (Construct (credentials args) (port args))
                        (LexeManager_new py (credentials args) (port args)) ;;
     ret (inl manager))
    [(ValueError, fun e =>
        print stderr ("Error: " ++ exn_str e) ;;
        ret (inr 1))].

Definition main (cl : CommandLine) : M W Z :=
  let args := parse_args cl in
  (if verbose args then emit SetLevelDebug else ret tt) ;;
  r <- initialize args ;;
  match r with
  | inr code => ret code
  | inl manager => execute args manager
  end.

(** One run of the program from world [w]: what [main] returns or raises,
    the world it leaves, and what it did. *)
Definition run (cl : CommandLine) (w : W) : result Z * (W * list event) :=
  main cl (w, []).

Definition outcome (cl : CommandLine) (w : W) : result Z := fst (run cl w).
Definition final_world (cl : CommandLine) (w : W) : W := fst (snd (run cl w)).
Definition trace (cl : CommandLine) (w : W) : list event := snd (snd (run cl w)).

(** Events up to and including the constructor call. *)
Definition prelude (cl : CommandLine) : list event :=
  ((if given_verbose cl then [SetLevelDebug] else [])
     ++ [Construct (given_credentials cl) (default 5393 (given_port cl))])%list.
End Main.

Arguments run {W V} py cl w.
Arguments outcome {W V} py cl w.
Arguments final_world {W V} py cl w.
Arguments trace {W V} py cl w.

(** ** The supervisor behind the manager

    [cli.py] imports [LexeManager] from the [lexe_wrapper] package.  Where a
    property of [main] depends on what the manager's methods do, the methods
    are taken from the specification of the supervisor (sections 3, 4 and 6). *)

Module Supervisor.

(** Modelled from the spec: the [HealthState] of section 3, kept by the
    absent [lexe_wrapper] package. *)
Inductive HealthState : Type :=
| Unknown | Starting | Healthy | Unhealthy | Stopped.

(** Modelled from the spec: what the supervisor of the absent [lexe_wrapper]
    package does to the machine and the network (sections 4.1 to 4.4). *)
Inductive Effect : Type :=
| Fetch                      (* download of the binary *)
| WriteBinary                (* atomic write under the storage directory *)
| Spawn
| Terminate                  (* graceful stop signal *)
| Kill                       (* forceful kill *)
| HttpGet (path : string).

Definition is_network (ef : Effect) : bool :=
  match ef with
  | Fetch | HttpGet _ => true
  | _ => false
  end.

(** Modelled from the spec: how the download source, the operating system
    and the sidecar answer the supervisor (section 6), none of which is
    under [src/]. *)
Record Outside (V : Type) : Type := {
  fetch_ok : bool;
  spawn_ok : bool;
  exits_gracefully : bool;
  api_status : Z;
  api_body : option V        (* [None]: the body does not decode *)
}.
Arguments fetch_ok {V} _.
Arguments spawn_ok {V} _.
Arguments exits_gracefully {V} _.
Arguments api_status {V} _.
Arguments api_body {V} _.

(** Modelled from the spec: the state behind one supervisor of the absent
    [lexe_wrapper] package (section 3): the tracked process, the cached
    binary, and what has been done so far. *)
Record World (V : Type) : Type := {
  process_alive : bool;
  health_state : HealthState;
  binary_cached : bool;
  probes : list bool;        (* answers of the coming readiness probes *)
  effects : list Effect;
  outside : Outside V
}.
Arguments process_alive {V} _.
Arguments health_state {V} _.
Arguments binary_cached {V} _.
Arguments probes {V} _.
Arguments effects {V} _.
Arguments outside {V} _.

(** Modelled from the spec: the error kinds of section 7 that the absent
    [lexe_wrapper] package raises; the validation error of the constructor
    is a [ValueError]. *)
Definition ConfigError : pyclass := Subclass "ConfigError" ValueError.
Definition PreconditionError : pyclass := Subclass "PreconditionError" Exception.
Definition AlreadyRunning : pyclass := Subclass "AlreadyRunning" Exception.
Definition DownloadError : pyclass := Subclass "DownloadError" Exception.
Definition SpawnError : pyclass := Subclass "SpawnError" Exception.
Definition TransportError : pyclass := Subclass "TransportError" Exception.
Definition AuthError : pyclass := Subclass "AuthError" Exception.
Definition DecodeError : pyclass := Subclass "DecodeError" Exception.

Definition binary_path : string := "lexe-sidecar".

Section Operations.
Context {V : Type}.

Definition log (ef : Effect) (w : World V) : World V := {|
  process_alive := process_alive w;
  health_state := health_state w;
  binary_cached := binary_cached w;
  probes := probes w;
  effects := (effects w ++ [ef])%list;
  outside := outside w
|}.

Definition set_process (alive : bool) (h : HealthState) (w : World V)
  : World V := {|
  process_alive := alive;
  health_state := h;
  binary_cached := binary_cached w;
  probes := probes w;
  effects := effects w;
  outside := outside w
|}.

Definition set_cached (w : World V) : World V := {|
  process_alive := process_alive w;
  health_state := health_state w;
  binary_cached := true;
  probes := probes w;
  effects := effects w;
  outside := outside w
|}.

Definition set_probes (l : list bool) (w : World V) : World V := {|
  process_alive := process_alive w;
  health_state := health_state w;
  binary_cached := binary_cached w;
  probes := l;
  effects := effects w;
  outside := outside w
|}.

(** Modelled from the spec: 4.1 [ensure_binary] of the absent
    [lexe_wrapper] package.  A cached binary is returned without network
    access; otherwise it is fetched and written, and a failed fetch
    leaves nothing behind. *)
Definition ensure_binary (w : World V) : result string * World V :=
  if binary_cached w then (Ok binary_path, w)
  else
    let w1 := log Fetch w in
    if fetch_ok (outside w1)
    then (Ok binary_path, set_cached (log WriteBinary w1))
    else (Raise (mkExn DownloadError "download failed"), w1).

(** Modelled from the spec: 4.2 [terminate] of the absent [lexe_wrapper]
    package.  A graceful signal first, a forceful kill if the process
    has not exited; a dead handle is left alone. *)
Definition terminate (w : World V) : World V :=
  if process_alive w then
    let w1 := log Terminate w in
    let w2 := if exits_gracefully (outside w1) then w1 else log Kill w1 in
    set_process false Stopped w2
  else w.

(** Modelled from the spec: 4.3 [probe_once] of the absent [lexe_wrapper]
    package.  One GET on the readiness path; it never fails, and
    everything but a ready answer is unhealthy. *)
Definition probe_once (w : World V) : bool * World V :=
  let w1 := log (HttpGet "/health") w in
  match probes w1 with
  | [] => (false, w1)
  | answer :: rest => (answer, set_probes rest w1)
  end.

(** Modelled from the spec: 4.3 [wait_until_healthy] of the absent
    [lexe_wrapper] package, polling once a second; [polls] is the number
    of probes the timeout leaves room for.  A process that is gone fails
    the wait at once. *)
Fixpoint wait_until_healthy (polls : nat) (w : World V) : bool * World V :=
  match polls with
  | O => (false, w)
  | S polls' =>
      if process_alive w then
        let (ready, w1) := probe_once w in
        if ready then (true, w1) else wait_until_healthy polls' w1
      else (false, w)
  end.

(** Modelled from the spec: 4.4 [call] of the absent [lexe_wrapper]
    package, for the node information endpoint.  A missing token fails
    before any network access. *)
Definition api_call (token : option string) (w : World V)
  : result V * World V :=
  if truthy token then
    let w1 := log (HttpGet "/node-info") w in
    let status := api_status (outside w1) in
    if (200 <=? status) && (status <? 300) then
      match api_body (outside w1) with
      | Some v => (Ok v, w1)
      | None => (Raise (mkExn DecodeError "malformed response body"), w1)
      end
    else if (status =? 401) || (status =? 403)
    then (Raise (mkExn AuthError "not authorized"), w1)
    else (Raise (mkExn TransportError ("status " ++ str_int status)), w1)
  else (Raise (mkExn PreconditionError "no authorization token"), w).

(** Modelled from the spec: 4.5 [start] of the absent [lexe_wrapper]
    package.  Token present and no live process, then binary, spawn and
    the optional wait; a wait that times out terminates the process. *)
Definition start (token : option string) (wait_for_health : bool)
    (health_timeout : Z) (w : World V) : result bool * World V :=
  if negb (truthy token)
  then (Raise (mkExn ConfigError "credentials are required"), w)
  else if process_alive w
  then (Raise (mkExn AlreadyRunning "sidecar is already running"), w)
  else
    match ensure_binary w with
    | (Raise e, w1) => (Raise e, w1)
    | (Ok _, w1) =>
        let w2 := log Spawn w1 in
        if spawn_ok (outside w2) then
          let w3 := set_process true Starting w2 in
          if wait_for_health then
            let (ready, w4) :=
              wait_until_healthy (S (Z.to_nat health_timeout)) w3 in
            if ready
            then (Ok true, set_process true Healthy w4)
            else (Raise (mkExn TimeoutError "sidecar did not become healthy"),
                  terminate w4)
          else (Ok true, w3)
        else (Raise (mkExn SpawnError "could not spawn the sidecar"), w2)
    end.

(** Modelled from the spec: 4.5 [stop] of the absent [lexe_wrapper]
    package.  Success without doing anything when already stopped;
    otherwise terminate, and the end state is stopped. *)
Definition stop (w : World V) : result bool * World V :=
  if process_alive w then (Ok true, terminate w) else (Ok true, w).

(** Modelled from the spec: the liveness half of 4.5 [status] of the
    absent [lexe_wrapper] package; it does not change the state. *)
Definition alive (w : World V) : result bool * World V :=
  (Ok (process_alive w), w).

(** Modelled from the spec: [check_health] of the absent [lexe_wrapper]
    package, a single probe (4.3, 4.5). *)
Definition check (w : World V) : result bool * World V :=
  let (ready, w1) := probe_once w in (Ok ready, w1).

(** Modelled from the spec: 4.5 [query] of the absent [lexe_wrapper]
    package for node information.  It needs a live process, does not
    start one, and otherwise goes to the API client. *)
Definition query (token : option string) (w : World V)
  : result V * World V :=
  if process_alive w then api_call token w
  else (Raise (mkExn PreconditionError "sidecar is not running"), w).

Definition url (port : Z) : string :=
  "http://localhost:" ++ str_int port.

(** Modelled from the spec: the operations the presentation layer relies on
    (section 6), as an object of the absent [lexe_wrapper] package. *)
Definition manager (token : option string) (port : Z)
  : LexeManager (World V) V := {|
  client_credentials := token;
  base_url := url port;
  download_sidecar_binary := ensure_binary;
  start_sidecar := start token;
  stop_sidecar := stop;
  is_running := alive;
  check_health := check;
  get_node_info := query token
|}.

(** Modelled from the spec: the constructor of the absent [lexe_wrapper]
    package (sections 3 and 6).  The port must be an unsigned 16-bit
    value; the token may be absent; nothing else happens. *)
Definition new (token : option string) (port : Z) (w : World V)
  : result (LexeManager (World V) V) * World V :=
  if (0 <=? port) && (port <=? 65535)
  then (Ok (manager token port), w)
  else (Raise (mkExn ConfigError ("invalid port " ++ str_int port)), w).

Definition imports (dumps : V -> result string) : Imports (World V) V := {|
  LexeManager_new := new;
  json_dumps := dumps
|}.
End Operations.
End Supervisor.

(** ** Scripted managers

    A manager whose every method gives a fixed answer; the world counts the
    calls made so far. *)

Record Script : Type := {
  on_new : option exn;
  has_credentials : option string;
  on_download : result string;
  on_start : result bool;
  on_stop : result bool;
  on_is_running : result bool;
  on_check_health : result bool;
  on_get_node_info : result string
}.

Definition answer {A} (r : result A) (calls : nat) : result A * nat :=
  (r, S calls).

Definition scripted_manager (sc : Script) : LexeManager nat string := {|
  client_credentials := has_credentials sc;
  base_url := "http://localhost:5393";
  download_sidecar_binary := answer (on_download sc);
  start_sidecar := fun _ _ => answer (on_start sc);
  stop_sidecar := answer (on_stop sc);
  is_running := answer (on_is_running sc);
  check_health := answer (on_check_health sc);
  get_node_info := answer (on_get_node_info sc)
|}.

Definition scripted (sc : Script) : Imports nat string := {|
  LexeManager_new := fun _ _ calls =>
    match on_new sc with
    | Some e => (Raise e, calls)
    | None => (Ok (scripted_manager sc), calls)
    end;
  json_dumps := fun text => Ok text
|}.

(** Everything succeeds. *)
Definition all_well : Script := {|
  on_new := None;
  has_credentials := Some "credentials";
  on_download := Ok "bin/lexe-sidecar";
  on_start := Ok true;
  on_stop := Ok true;
  on_is_running := Ok true;
  on_check_health := Ok true;
  on_get_node_info := Ok "{}"
|}.

Definition with_new (e : exn) (sc : Script) : Script := {|
  on_new := Some e;
  has_credentials := has_credentials sc;
  on_download := on_download sc;
  on_start := on_start sc;
  on_stop := on_stop sc;
  on_is_running := on_is_running sc;
  on_check_health := on_check_health sc;
  on_get_node_info := on_get_node_info sc
|}.

Definition with_credentials (c : option string) (sc : Script) : Script := {|
  on_new := on_new sc;
  has_credentials := c;
  on_download := on_download sc;
  on_start := on_start sc;
  on_stop := on_stop sc;
  on_is_running := on_is_running sc;
  on_check_health := on_check_health sc;
  on_get_node_info := on_get_node_info sc
|}.

Definition with_stop (r : result bool) (sc : Script) : Script := {|
  on_new := on_new sc;
  has_credentials := has_credentials sc;
  on_download := on_download sc;
  on_start := on_start sc;
  on_stop := r;
  on_is_running := on_is_running sc;
  on_check_health := on_check_health sc;
  on_get_node_info := on_get_node_info sc
|}.


(** The command line [cli.py <command>] with no option. *)
Definition bare (c : command_choice) : CommandLine := {|
  given_command := c;
  given_credentials := None;
  given_port := None;
  given_timeout := None;
  given_no_wait := false;
  given_verbose := false
|}.

(** A machine on which nothing runs and nothing is cached. *)
Definition idle : Supervisor.World string := {|
  Supervisor.process_alive := false;
  Supervisor.health_state := Supervisor.Stopped;
  Supervisor.binary_cached := false;
  Supervisor.probes := [];
  Supervisor.effects := [];
  Supervisor.outside := {|
    Supervisor.fetch_ok := true;
    Supervisor.spawn_ok := true;
    Supervisor.exits_gracefully := true;
    Supervisor.api_status := 200;
    Supervisor.api_body := Some "{}"
  |}
|}.

(** [json.dumps] on a value that is already text. *)
Definition echo (text : string) : result string := Ok text.

(** The scripts of the concrete runs below. *)
Definition no_credentials : Script := with_credentials None all_well.
Definition rejects_port : Script :=
  with_new (mkExn ValueError "bad port") all_well.
Definition disk_full : Script :=
  with_new (mkExn OSError "disk full") all_well.
Definition stop_exits : Script :=
  with_stop (Raise (mkExn SystemExit "2")) all_well.

Definition with_download (r : result string) (sc : Script) : Script := {|
  on_new := on_new sc;
  has_credentials := has_credentials sc;
  on_download := r;
  on_start := on_start sc;
  on_stop := on_stop sc;
  on_is_running := on_is_running sc;
  on_check_health := on_check_health sc;
  on_get_node_info := on_get_node_info sc
|}.

Definition with_start (r : result bool) (sc : Script) : Script := {|
  on_new := on_new sc;
  has_credentials := has_credentials sc;
  on_download := on_download sc;
  on_start := r;
  on_stop := on_stop sc;
  on_is_running := on_is_running sc;
  on_check_health := on_check_health sc;
  on_get_node_info := on_get_node_info sc
|}.

Definition with_check_health (r : result bool) (sc : Script) : Script := {|
  on_new := on_new sc;
  has_credentials := has_credentials sc;
  on_download := on_download sc;
  on_start := on_start sc;
  on_stop := on_stop sc;
  on_is_running := on_is_running sc;
  on_check_health := r;
  on_get_node_info := on_get_node_info sc
|}.

Definition with_get_node_info (r : result string) (sc : Script) : Script := {|
  on_new := on_new sc;
  has_credentials := has_credentials sc;
  on_download := on_download sc;
  on_start := on_start sc;
  on_stop := on_stop sc;
  on_is_running := on_is_running sc;
  on_check_health := on_check_health sc;
  on_get_node_info := r
|}.

(** A scripted manager next to a [json.dumps] of one's choice. *)
Definition scripted_with (dumps : string -> result string) (sc : Script)
  : Imports nat string := {|
  LexeManager_new := LexeManager_new (scripted sc);
  json_dumps := dumps
|}.

(** [json.dumps] on a value it cannot serialize. *)
Definition not_serializable (text : string) : result string :=
  Raise (mkExn TypeError "Object of type bytes is not JSON serializable").

Definition unhealthy : Script := with_check_health (Ok false) all_well.
Definition unreachable : Script :=
  with_get_node_info (Raise (mkExn ConnectionError "connection refused")) all_well.
Definition download_interrupted : Script :=
  with_download (Raise (mkExn KeyboardInterrupt "")) all_well.
Definition download_fails : Script :=
  with_download (Raise (mkExn OSError "no space left on device")) all_well.

(** [cli.py start --port 8080 --no-wait -v] *)
Definition start_no_wait : CommandLine := {|
  given_command := start;
  given_credentials := None;
  given_port := Some 8080;
  given_timeout := None;
  given_no_wait := true;
  given_verbose := true
|}.

(** ** Reasoning about runs *)

(** [constructed py cl w manager w1]: on the command line [cl], from world
    [w], the constructor returns [manager] and leaves world [w1]. *)
Definition constructed {W V} (py : Imports W V) (cl : CommandLine) (w : W)
    (manager : LexeManager W V) (w1 : W) : Prop :=
  LexeManager_new py (credentials (parse_args cl)) (port (parse_args cl)) w
  = (Ok manager, w1).

(** [construction_raises py cl w e w1]: the constructor raises [e]. *)
Definition construction_raises {W V} (py : Imports W V) (cl : CommandLine)
    (w : W) (e : exn) (w1 : W) : Prop :=
  LexeManager_new py (credentials (parse_args cl)) (port (parse_args cl)) w
  = (Raise e, w1).

(** The manager calls of a trace, in order. *)
Definition invocations (tr : list event) : list event := filter is_invoke tr.

(** The manager call of a command raises [e], leaving world [w2]: the one
    call of [download], [start] (reached with credentials), [stop], [health]
    and [node-info]; for [status], [is_running], or [check_health] after
    [is_running] returned true. *)
Definition command_call_raises {W V} (cl : CommandLine)
    (manager : LexeManager W V) (w1 : W) (e : exn) (w2 : W) : Prop :=
  match given_command cl with
  | download => download_sidecar_binary manager w1 = (Raise e, w2)
  | start =>
      truthy (client_credentials manager) = true
      /\ start_sidecar manager (negb (no_wait (parse_args cl)))
           (timeout (parse_args cl)) w1 = (Raise e, w2)
  | stop => stop_sidecar manager w1 = (Raise e, w2)
  | status =>
      is_running manager w1 = (Raise e, w2)
      \/ (exists w', is_running manager w1 = (Ok true, w')
                     /\ check_health manager w' = (Raise e, w2))
  | health => check_health manager w1 = (Raise e, w2)
  | node_info => get_node_info manager w1 = (Raise e, w2)
  end.

Definition is_node_info (c : command_choice) : bool :=
  match c with node_info => true | _ => false end.

(** Written to [sys.stderr]. *)
Definition is_stderr (ev : event) : bool :=
  match ev with Print stderr _ => true | _ => false end.


(** The manager methods the branch of a command mentions. *)
Definition may_call (c : command_choice) (m : call) : bool :=
  match c, m with
  | download, DownloadSidecarBinary => true
  | start, StartSidecar _ _ => true
  | stop, StopSidecar => true
  | status, IsRunning => true
  | status, CheckHealth => true
  | health, CheckHealth => true
  | node_info, GetNodeInfo => true
  | _, _ => false
  end.

(** The lines with which [main] can end a run that returns 1 without having
    written to stderr. *)
Definition not_healthy_line : event := Print stdout "✗ Sidecar is not healthy".
Definition interrupted_line : event :=
  Print stdout (newline ++ "Interrupted by user").

Section Runs.
Context {W V : Type}.
Variable py : Imports W V.

Lemma run_constructed cl w manager w1 :
  constructed py cl w manager w1 ->
  run py cl w = execute py (parse_args cl) manager (w1, prelude cl).
Proof.
  unfold constructed, run, main, initialize, try_except, bind, perform, prelude.
  destruct cl as [c cr p t nw vb]; simpl. intros H.
  destruct vb; simpl; rewrite H; reflexivity.
Qed.

Lemma run_construction_raises cl w e w1 :
  construction_raises py cl w e w1 ->
  run py cl w =
    if isinstance e ValueError
    then (Ok 1, (w1, (prelude cl ++ [Print stderr ("Error: " ++ exn_str e)])%list))
    else (Raise e, (w1, prelude cl)).
Proof.
  unfold construction_raises, run, main, initialize, try_except, bind, perform, prelude.
  destruct cl as [c cr p t nw vb]; simpl. intros H.
  destruct vb; simpl; rewrite H; simpl;
    destruct (isinstance e ValueError); reflexivity.
Qed.

Lemma invocations_prelude cl : invocations (prelude cl) = [].
Proof. unfold prelude. destruct (given_verbose cl); reflexivity. Qed.

Lemma invocations_app tr tr' :
  invocations (tr ++ tr') = (invocations tr ++ invocations tr')%list.
Proof. apply filter_app. Qed.
End Runs.

(** ** Case analysis of a run *)

Ltac unfold_run :=
  unfold execute, dispatch, status_flags, try_except, bind, perform, print,
    emit, ret, lift, select_clause; simpl.

(** Split on an answer of the manager. *)
Ltac split_answer op :=
  let b := fresh "b" in
  let e := fresh "e" in
  let w := fresh "w" in
  let E := fresh "E" in
  destruct op as [[b | e] w] eqn:E; simpl.

(** Split on the next answer of the manager, or on the next test. *)
Ltac split_run :=
  match goal with
  | |- context [download_sidecar_binary ?m ?w] =>
      split_answer (download_sidecar_binary m w)
  | |- context [start_sidecar ?m ?a ?t ?w] =>
      split_answer (start_sidecar m a t w)
  | |- context [stop_sidecar ?m ?w] => split_answer (stop_sidecar m w)
  | |- context [is_running ?m ?w] => split_answer (is_running m w)
  | |- context [check_health ?m ?w] => split_answer (check_health m w)
  | |- context [get_node_info ?m ?w] => split_answer (get_node_info m w)
  | |- context [json_dumps ?py ?v] =>
      let t := fresh "t" in
      let e := fresh "e" in
      let E := fresh "E" in
      destruct (json_dumps py v) as [t | e] eqn:E; simpl
  | |- context [isinstance ?e ?c] =>
      let E := fresh "E" in
      destruct (isinstance e c) eqn:E; simpl
  | |- context [if ?b then _ else _] =>
      let E := fresh "E" in
      destruct b eqn:E; simpl
  end.

(** Use what is known about the answers and the tests of a run. *)
Ltac use_answers :=
  repeat match goal with
         | H : _ /\ _ |- _ => destruct H
         | H : exists _, _ |- _ => destruct H
         | H : _ \/ _ |- _ => destruct H
         end;
  unfold_run;
  repeat match goal with
         | H : _ = _ |- _ => rewrite H; simpl
         end.

Section Commands.
Context {W V : Type}.
Variable py : Imports W V.

(** C1: on [start], when the constructed manager has no (falsy)
    credentials, [main] prints an error, returns 1 and never calls
    [start_sidecar]: it makes no manager call at all and leaves the world
    as the constructor left it, so nothing is downloaded or spawned. *)
Theorem start_without_credentials cl w manager w1 :
  given_command cl = start ->
  constructed py cl w manager w1 ->
  truthy (client_credentials manager) = false ->
  outcome py cl w = Ok 1
  /\ trace py cl w = (prelude cl ++ [Print stderr credentials_required])%list
  /\ existsb is_start_sidecar (trace py cl w) = false
  /\ invocations (trace py cl w) = []
  /\ final_world py cl w = w1.
Proof.
  intros Hc Hm Ht. unfold outcome, trace, final_world.
  rewrite (run_constructed py _ _ _ _ Hm).
  destruct cl as [c cr p t nw vb]; simpl in Hc; subst c.
  unfold_run. rewrite Ht. simpl.
  repeat split; destruct vb; reflexivity.
Qed.

(** C4: when the constructor raises a [ValueError], [main] prints it to
    stderr and returns 1; no command runs and no manager method is
    called. *)
Theorem constructor_value_error cl w e w1 :
  construction_raises py cl w e w1 ->
  isinstance e ValueError = true ->
  outcome py cl w = Ok 1
  /\ trace py cl w = (prelude cl ++ [Print stderr ("Error: " ++ exn_str e)])%list
  /\ invocations (trace py cl w) = []
  /\ final_world py cl w = w1.
Proof.
  intros Hr Hv. unfold outcome, trace, final_world.
  rewrite (run_construction_raises py _ _ _ _ Hr), Hv. simpl.
  repeat split.
  rewrite invocations_app, invocations_prelude. reflexivity.
Qed.

(** C10: when the constructor raises anything that is not a [ValueError],
    the exception leaves [main] uncaught: nothing is printed and no exit
    code is produced. *)
Theorem constructor_other_exception cl w e w1 :
  construction_raises py cl w e w1 ->
  isinstance e ValueError = false ->
  outcome py cl w = Raise e
  /\ trace py cl w = prelude cl
  /\ final_world py cl w = w1.
Proof.
  intros Hr Hv. unfold outcome, trace, final_world.
  rewrite (run_construction_raises py _ _ _ _ Hr), Hv. simpl.
  repeat split.
Qed.


(** The [stop] command: exit code 0 exactly when [stop_sidecar] returns
    true, and [stop_sidecar] is the one manager call. *)
Lemma stop_command cl w manager w1 :
  given_command cl = stop ->
  constructed py cl w manager w1 ->
  invocations (trace py cl w) = [Invoke StopSidecar]
  /\ (outcome py cl w = Ok 0 <-> fst (stop_sidecar manager w1) = Ok true).
Proof.
  intros Hc Hm. unfold outcome, trace.
  rewrite (run_constructed py _ _ _ _ Hm).
  destruct cl as [c cr p t nw vb]; simpl in Hc; subst c.
  unfold_run.
  repeat split_run; (split; [destruct vb; reflexivity | split; congruence]).
Qed.




End Commands.

(** ** The commands on the specified supervisor *)

Section OnSupervisor.
Context {V : Type}.
Variable dumps : V -> result string.

Lemma supervisor_constructed cl w manager w1 :
  constructed (Supervisor.imports dumps) cl w manager w1 ->
  manager = Supervisor.manager (credentials (parse_args cl)) (port (parse_args cl))
  /\ w1 = w.
Proof.
  unfold constructed.
  generalize (credentials (parse_args cl)), (port (parse_args cl)).
  intros token p. cbn [LexeManager_new Supervisor.imports].
  unfold Supervisor.new.
  destruct ((0 <=? p) && (p <=? 65535)); intros H; inversion H.
  split; reflexivity.
Qed.

(** C2: on [node-info], when [is_running()] says the process is not alive,
    [get_node_info] fails with a precondition error, [main] reports it and
    returns 1, and the supervisor has done nothing: no effect, so no
    network call, was added. *)
Theorem node_info_while_not_alive cl w manager w1 :
  given_command cl = node_info ->
  constructed (Supervisor.imports dumps) cl w manager w1 ->
  fst (is_running manager w1) = Ok false ->
  get_node_info manager w1
  = (Raise (mkExn Supervisor.PreconditionError "sidecar is not running"), w1)
  /\ outcome (Supervisor.imports dumps) cl w = Ok 1
  /\ trace (Supervisor.imports dumps) cl w
     = (prelude cl
        ++ [Invoke GetNodeInfo;
            Print stderr "✗ Failed to get node info: sidecar is not running"])%list
  /\ final_world (Supervisor.imports dumps) cl w = w
  /\ filter Supervisor.is_network
       (Supervisor.effects (final_world (Supervisor.imports dumps) cl w))
     = filter Supervisor.is_network (Supervisor.effects w).
Proof.
  intros Hc Hm Hr. unfold outcome, trace, final_world.
  rewrite (run_constructed _ _ _ _ _ Hm).
  destruct (supervisor_constructed _ _ _ _ Hm) as [-> ->].
  destruct cl as [c cr p t nw vb]; simpl in Hc; subst c.
  simpl in Hr. unfold Supervisor.alive in Hr. simpl in Hr.
  assert (Ha : Supervisor.process_alive w = false) by congruence.
  unfold_run. unfold Supervisor.query. rewrite Ha. simpl.
  repeat split. rewrite <- app_assoc. reflexivity.
Qed.

Lemma stop_when_stopped cl w manager w1 :
  given_command cl = stop ->
  constructed (Supervisor.imports dumps) cl w manager w1 ->
  fst (is_running manager w1) = Ok false ->
  stop_sidecar manager w1 = (Ok true, w1)
  /\ outcome (Supervisor.imports dumps) cl w = Ok 0
  /\ final_world (Supervisor.imports dumps) cl w = w.
Proof.
  intros Hc Hm Hr. unfold outcome, final_world.
  rewrite (run_constructed _ _ _ _ _ Hm).
  destruct (supervisor_constructed _ _ _ _ Hm) as [-> ->].
  destruct cl as [c cr p t nw vb]; simpl in Hc; subst c.
  simpl in Hr. unfold Supervisor.alive in Hr. simpl in Hr.
  assert (Ha : Supervisor.process_alive w = false) by congruence.
  unfold_run. unfold Supervisor.stop. rewrite Ha. simpl.
  repeat split.
Qed.
End OnSupervisor.

(** C6: on [stop], the exit code is 0 exactly when [stop_sidecar] returns
    true, whatever the manager; and on the supervisor, stopping when no
    process is alive returns true, exits 0 and leaves the world, its effects
    included, untouched. *)
Theorem stop_exit_code :
  (forall (W V : Type) (py : Imports W V) cl w manager w1,
      given_command cl = stop ->
      constructed py cl w manager w1 ->
      (outcome py cl w = Ok 0 <-> fst (stop_sidecar manager w1) = Ok true))
  /\ (forall (V : Type) (dumps : V -> result string) cl w manager w1,
        given_command cl = stop ->
        constructed (Supervisor.imports dumps) cl w manager w1 ->
        fst (is_running manager w1) = Ok false ->
        stop_sidecar manager w1 = (Ok true, w1)
        /\ outcome (Supervisor.imports dumps) cl w = Ok 0
        /\ final_world (Supervisor.imports dumps) cl w = w).
Proof.
  split.
  - intros W V py cl w manager w1 Hc Hm.
    apply (stop_command py cl w manager w1 Hc Hm).
  - intros V dumps cl w manager w1. apply stop_when_stopped.
Qed.

(** ** Concrete runs *)


(** [start] without credentials on a scripted manager. *)
Lemma start_without_credentials_run :
  outcome (scripted no_credentials) (bare start) 0%nat = Ok 1
  /\ trace (scripted no_credentials) (bare start) 0%nat
     = [Construct None 5393; Print stderr credentials_required]
  /\ existsb is_start_sidecar
       (trace (scripted no_credentials) (bare start) 0%nat) = false
  /\ invocations (trace (scripted no_credentials) (bare start) 0%nat) = []
  /\ final_world (scripted no_credentials) (bare start) 0%nat = 0%nat.
Proof.
  apply (start_without_credentials (scripted no_credentials) (bare start)
           0%nat (scripted_manager no_credentials) 0%nat); reflexivity.
Defined.

(** [node-info] on an idle machine. *)
Lemma node_info_while_not_alive_run :
  get_node_info (Supervisor.manager None 5393) idle
  = (Raise (mkExn Supervisor.PreconditionError "sidecar is not running"), idle)
  /\ outcome (Supervisor.imports echo) (bare node_info) idle = Ok 1
  /\ trace (Supervisor.imports echo) (bare node_info) idle
     = [Construct None 5393;
        Invoke GetNodeInfo;
        Print stderr "✗ Failed to get node info: sidecar is not running"]
  /\ final_world (Supervisor.imports echo) (bare node_info) idle = idle
  /\ filter Supervisor.is_network
       (Supervisor.effects
          (final_world (Supervisor.imports echo) (bare node_info) idle))
     = [].
Proof.
  apply (node_info_while_not_alive echo (bare node_info) idle
           (Supervisor.manager None 5393) idle); reflexivity.
Defined.


(** A constructor that rejects its arguments with a [ValueError]. *)
Lemma constructor_value_error_run :
  outcome (scripted rejects_port) (bare download) 0%nat = Ok 1
  /\ trace (scripted rejects_port) (bare download) 0%nat
     = [Construct None 5393; Print stderr "Error: bad port"]
  /\ invocations (trace (scripted rejects_port) (bare download) 0%nat) = []
  /\ final_world (scripted rejects_port) (bare download) 0%nat = 0%nat.
Proof.
  apply (constructor_value_error (scripted rejects_port) (bare download) 0%nat
           (mkExn ValueError "bad port") 0%nat); reflexivity.
Defined.


(** [stop] on a scripted manager, and on an idle machine. *)
Lemma stop_exit_code_run :
  (outcome (scripted all_well) (bare stop) 0%nat = Ok 0
   <-> fst (stop_sidecar (scripted_manager all_well) 0%nat) = Ok true)
  /\ (stop_sidecar (Supervisor.manager None 5393) idle = (Ok true, idle)
      /\ outcome (Supervisor.imports echo) (bare stop) idle = Ok 0
      /\ final_world (Supervisor.imports echo) (bare stop) idle = idle).
Proof.
  destruct stop_exit_code as [any_manager supervisor].
  split.
  - apply (any_manager nat string (scripted all_well) (bare stop) 0%nat
             (scripted_manager all_well) 0%nat); reflexivity.
  - apply (supervisor string echo (bare stop) idle
             (Supervisor.manager None 5393) idle); reflexivity.
Defined.




(** A constructor that fails with something other than a [ValueError]. *)
Lemma constructor_other_exception_run :
  outcome (scripted disk_full) (bare start) 0%nat
  = Raise (mkExn OSError "disk full")
  /\ trace (scripted disk_full) (bare start) 0%nat = [Construct None 5393]
  /\ final_world (scripted disk_full) (bare start) 0%nat = 0%nat.
Proof.
  apply (constructor_other_exception (scripted disk_full) (bare start) 0%nat
           (mkExn OSError "disk full") 0%nat); reflexivity.
Defined.

(** The specified supervisor on [cli.py start --credentials ...], from an
    idle machine whose sidecar is ready at the second probe: the binary is
    fetched, the process spawned and polled, and [main] returns 0. *)
Example fresh_start :
  run (Supervisor.imports echo)
      {| given_command := start;
         given_credentials := Some "credentials";
         given_port := None;
         given_timeout := None;
         given_no_wait := false;
         given_verbose := false |}
      (Supervisor.set_probes [false; true] idle)
  = (Ok 0,
     ({| Supervisor.process_alive := true;
         Supervisor.health_state := Supervisor.Healthy;
         Supervisor.binary_cached := true;
         Supervisor.probes := [];
         Supervisor.effects :=
           [Supervisor.Fetch; Supervisor.WriteBinary; Supervisor.Spawn;
            Supervisor.HttpGet "/health"; Supervisor.HttpGet "/health"];
         Supervisor.outside := Supervisor.outside idle |},
      [Construct (Some "credentials") 5393;
       Print stdout "Starting Lexe sidecar...";
       Invoke (StartSidecar true 30);
       Print stdout "✓ Sidecar started successfully on port 5393";
       Print stdout "✓ Health check passed"])).
Proof. reflexivity. Qed.

(** ** The remaining branches of [main] *)

Section Branches.
Context {W V : Type}.
Variable py : Imports W V.

(** X1: on [download], [download_sidecar_binary] is the one manager call and
    the exit code is 0 exactly when it returns; the path it returns is
    printed after the announcement. *)
Theorem download_command cl w manager w1 :
  given_command cl = download ->
  constructed py cl w manager w1 ->
  invocations (trace py cl w) = [Invoke DownloadSidecarBinary]
  /\ (outcome py cl w = Ok 0
      <-> exists path, fst (download_sidecar_binary manager w1) = Ok path)
  /\ (forall path w2,
        download_sidecar_binary manager w1 = (Ok path, w2) ->
        run py cl w
        = (Ok 0,
           (w2,
            (prelude cl
             ++ [Print stdout "Downloading Lexe sidecar binary...";
                 Invoke DownloadSidecarBinary;
                 Print stdout ("✓ Binary ready at: " ++ path)])%list))).
Proof.
  intros Hc Hm. unfold outcome, trace.
  rewrite (run_constructed py _ _ _ _ Hm).
  destruct cl as [c cr p t nw vb]; simpl in Hc; subst c.
  unfold_run.
  repeat split_run;
    (split; [destruct vb; reflexivity | split]);
    try (split; [intros H; try discriminate H; eexists; reflexivity
                | intros [path H]; congruence]);
    intros path w2 H; inversion H; subst;
    rewrite <- !app_assoc; reflexivity.
Qed.

(** X2: on [node-info], [get_node_info] is the one manager call, and the
    exit code is 0 exactly when it returns a value that [json.dumps]
    accepts; the dump is then printed under the heading. *)
Theorem node_info_command cl w manager w1 :
  given_command cl = node_info ->
  constructed py cl w manager w1 ->
  invocations (trace py cl w) = [Invoke GetNodeInfo]
  /\ (outcome py cl w = Ok 0
      <-> exists info text,
            fst (get_node_info manager w1) = Ok info
            /\ json_dumps py info = Ok text)
  /\ (forall info w2 text,
        get_node_info manager w1 = (Ok info, w2) ->
        json_dumps py info = Ok text ->
        run py cl w
        = (Ok 0,
           (w2,
            (prelude cl
             ++ [Invoke GetNodeInfo;
                 Print stdout "Node Information:";
                 Print stdout text])%list))).
Proof.
  intros Hc Hm. unfold outcome, trace.
  rewrite (run_constructed py _ _ _ _ Hm).
  destruct cl as [c cr p t nw vb]; simpl in Hc; subst c.
  unfold_run.
  repeat split_run;
    (split; [destruct vb; reflexivity | split]);
    try (split; [intros H; try discriminate H; eexists _, _; split; eauto
                | intros (info & text & H & H'); simpl in H; congruence]);
    intros info w2 text H H'; inversion H; subst;
    rewrite <- ?app_assoc; simpl; congruence.
Qed.

(** X3: on [node-info], an [Exception] raised by [get_node_info] is caught
    by the inner handler: the failure line goes to stderr, the heading is
    not printed, and the exit code is 1. *)
Theorem node_info_failure cl w manager w1 e w2 :
  given_command cl = node_info ->
  constructed py cl w manager w1 ->
  get_node_info manager w1 = (Raise e, w2) ->
  isinstance e Exception = true ->
  run py cl w
  = (Ok 1,
     (w2,
      (prelude cl
       ++ [Invoke GetNodeInfo;
           Print stderr ("✗ Failed to get node info: " ++ exn_str e)])%list)).
Proof.
  intros Hc Hm He Hi.
  rewrite (run_constructed py _ _ _ _ Hm).
  destruct cl as [c cr p t nw vb]; simpl in Hc; subst c.
  unfold_run. rewrite He. simpl. rewrite Hi. simpl.
  rewrite <- !app_assoc. reflexivity.
Qed.

(** X4: on [node-info], when [json.dumps] raises an [Exception] on the
    value returned, the heading has already been printed; the failure line
    follows on stderr and the exit code is 1. *)
Theorem node_info_dumps_failure cl w manager w1 info w2 e :
  given_command cl = node_info ->
  constructed py cl w manager w1 ->
  get_node_info manager w1 = (Ok info, w2) ->
  json_dumps py info = Raise e ->
  isinstance e Exception = true ->
  run py cl w
  = (Ok 1,
     (w2,
      (prelude cl
       ++ [Invoke GetNodeInfo;
           Print stdout "Node Information:";
           Print stderr ("✗ Failed to get node info: " ++ exn_str e)])%list)).
Proof.
  intros Hc Hm Hv He Hi.
  rewrite (run_constructed py _ _ _ _ Hm).
  destruct cl as [c cr p t nw vb]; simpl in Hc; subst c.
  unfold_run. rewrite Hv. simpl. rewrite He. simpl. rewrite Hi. simpl.
  rewrite <- !app_assoc. reflexivity.
Qed.

(** X5: on [status] with the process running, the three lines are printed,
    the health line following what [check_health] returned, and the exit
    code is 0 whether the sidecar is healthy or not. *)
Theorem status_running cl w manager w1 w2 healthy w3 :
  given_command cl = status ->
  constructed py cl w manager w1 ->
  is_running manager w1 = (Ok true, w2) ->
  check_health manager w2 = (Ok healthy, w3) ->
  run py cl w
  = (Ok 0,
     (w3,
      (prelude cl
       ++ [Invoke IsRunning;
           Invoke CheckHealth;
           Print stdout "Sidecar process: Running";
           Print stdout ("Health status: "
                         ++ (if healthy then "Healthy" else "Unhealthy"));
           Print stdout ("URL: " ++ base_url manager)])%list)).
Proof.
  intros Hc Hm Hr Hh.
  rewrite (run_constructed py _ _ _ _ Hm).
  destruct cl as [c cr p t nw vb]; simpl in Hc; subst c.
  unfold_run. rewrite Hr. simpl. rewrite Hh. simpl.
  rewrite <- !app_assoc. reflexivity.
Qed.

(** X6: on [status], the exit code is 0 exactly when no call raises:
    [is_running] returns false, or it returns true and [check_health]
    returns.  What they return does not change the exit code. *)
Theorem status_exit_code cl w manager w1 :
  given_command cl = status ->
  constructed py cl w manager w1 ->
  (outcome py cl w = Ok 0
   <-> (exists w2, is_running manager w1 = (Ok false, w2))
       \/ (exists w2 healthy w3,
             is_running manager w1 = (Ok true, w2)
             /\ check_health manager w2 = (Ok healthy, w3))).
Proof.
  intros Hc Hm. unfold outcome.
  rewrite (run_constructed py _ _ _ _ Hm).
  destruct cl as [c cr p t nw vb]; simpl in Hc; subst c.
  unfold_run.
  repeat split_run; split; intros H; try discriminate H;
    try (left; eexists; reflexivity);
    try (right; eexists _, _, _; split; [reflexivity | eassumption]);
    try reflexivity;
    destruct H as [[? H] | (? & ? & ? & H & H')];
    try discriminate H; inversion H; subst; congruence.
Qed.

(** X7: on [start] with credentials present, a true answer prints the
    success line with the port, followed by the health line unless
    [--no-wait] was given, and exits 0; a false answer prints the failure
    line to stderr and exits 1. *)
Theorem start_output cl w manager w1 :
  given_command cl = start ->
  constructed py cl w manager w1 ->
  truthy (client_credentials manager) = true ->
  let args := parse_args cl in
  let called := Invoke (StartSidecar (negb (no_wait args)) (timeout args)) in
  forall started w2,
    start_sidecar manager (negb (no_wait args)) (timeout args) w1
    = (Ok started, w2) ->
    run py cl w
    = if started then
        (Ok 0,
         (w2,
          (prelude cl
           ++ [Print stdout "Starting Lexe sidecar..."; called;
               Print stdout ("✓ Sidecar started successfully on port "
                             ++ str_int (port args))]
           ++ (if no_wait args then []
               else [Print stdout "✓ Health check passed"]))%list))
      else
        (Ok 1,
         (w2,
          (prelude cl
           ++ [Print stdout "Starting Lexe sidecar..."; called;
               Print stderr "✗ Failed to start sidecar"])%list)).
Proof.
  intros Hc Hm Ht args called started w2.
  rewrite (run_constructed py _ _ _ _ Hm).
  destruct cl as [c cr p t nw vb]; simpl in Hc; subst c.
  subst args called. simpl. intros Hs.
  unfold_run. rewrite Ht. simpl. rewrite Hs. simpl.
  destruct started, nw; simpl; rewrite <- !app_assoc; reflexivity.
Qed.

(** X8: outside [node-info], when the manager call of the command raises an
    [Exception] (that is not a [KeyboardInterrupt]), [main] prints
    ["Error: "] and the message to stderr right after the call, makes no
    further call and returns 1. *)
Theorem exception_reported cl w manager w1 e w2 :
  constructed py cl w manager w1 ->
  command_call_raises cl manager w1 e w2 ->
  is_node_info (given_command cl) = false ->
  isinstance e KeyboardInterrupt = false ->
  isinstance e Exception = true ->
  outcome py cl w = Ok 1
  /\ final_world py cl w = w2
  /\ exists tr c,
       trace py cl w
       = (tr ++ [Invoke c; Print stderr ("Error: " ++ exn_str e)])%list.
Proof.
  intros Hm Hr Hn Hk He. unfold outcome, final_world, trace.
  rewrite (run_constructed py _ _ _ _ Hm). clear Hm.
  destruct cl as [c cr p t nw vb]; unfold command_call_raises in Hr;
    destruct c; simpl in Hn, Hr; try discriminate Hn; clear Hn;
    use_answers;
    (split; [reflexivity | split; [reflexivity |]]);
    rewrite <- app_assoc; eexists _, _; reflexivity.
Qed.

(** X9: when the manager call of the command raises a [KeyboardInterrupt],
    [main] prints the interruption notice to stdout right after the call
    and returns 1.  On [node-info] this needs the exception not to be an
    [Exception] as well, which the inner handler would take. *)
Theorem keyboard_interrupt_reported cl w manager w1 e w2 :
  constructed py cl w manager w1 ->
  command_call_raises cl manager w1 e w2 ->
  isinstance e KeyboardInterrupt = true ->
  is_node_info (given_command cl) && isinstance e Exception = false ->
  outcome py cl w = Ok 1
  /\ final_world py cl w = w2
  /\ exists tr c, trace py cl w = (tr ++ [Invoke c; interrupted_line])%list.
Proof.
  intros Hm Hr Hk Hn. unfold outcome, final_world, trace, interrupted_line.
  rewrite (run_constructed py _ _ _ _ Hm). clear Hm.
  destruct cl as [c cr p t nw vb]; unfold command_call_raises in Hr;
    destruct c; simpl in Hn, Hr;
    use_answers;
    (split; [reflexivity | split; [reflexivity |]]);
    rewrite <- app_assoc; eexists _, _; reflexivity.
Qed.

(** X10: when the manager call of the command raises an exception that is
    neither a [KeyboardInterrupt] nor an [Exception], [main] raises it:
    nothing is printed after the call and no exit code is returned. *)
Theorem uncaught_exception_propagates cl w manager w1 e w2 :
  constructed py cl w manager w1 ->
  command_call_raises cl manager w1 e w2 ->
  caught_by_main e = false ->
  outcome py cl w = Raise e
  /\ final_world py cl w = w2
  /\ exists tr c, trace py cl w = (tr ++ [Invoke c])%list.
Proof.
  intros Hm Hr Hc. unfold outcome, final_world, trace.
  rewrite (run_constructed py _ _ _ _ Hm). clear Hm.
  apply orb_false_iff in Hc. destruct Hc as [Hk He].
  destruct cl as [c cr p t nw vb]; unfold command_call_raises in Hr;
    destruct c; simpl in Hr;
    use_answers;
    (split; [reflexivity | split; [reflexivity |]]);
    eexists _, _; reflexivity.
Qed.

(** Every path of a run: the constructor returns or raises, then the
    command takes its course. *)
Ltac every_run py cl w :=
  let m := fresh "manager" in
  let e := fresh "e" in
  let w1 := fresh "w" in
  let E := fresh "E" in
  unfold outcome, trace, final_world;
  destruct cl as [c cr p t nw vb];
  destruct (LexeManager_new py (credentials (parse_args
              {| given_command := c; given_credentials := cr;
                 given_port := p; given_timeout := t;
                 given_no_wait := nw; given_verbose := vb |}))
              (port (parse_args
              {| given_command := c; given_credentials := cr;
                 given_port := p; given_timeout := t;
                 given_no_wait := nw; given_verbose := vb |})) w)
    as [[m | e] w1] eqn:E;
  [ rewrite (run_constructed py _ _ m w1) by exact E;
    destruct c; unfold_run; repeat split_run
  | rewrite (run_construction_raises py _ _ e w1) by exact E;
    split_run ].

(** X11: a run that returns 0 has written nothing to stderr. *)
Theorem success_is_quiet_on_stderr cl w :
  outcome py cl w = Ok 0 ->
  filter is_stderr (trace py cl w) = [].
Proof.
  every_run py cl w; intros H; try discriminate H;
    destruct vb; reflexivity.
Qed.

(** X12: a run that returns 1 ends with a line of explanation: on stderr,
    or on stdout for an unhealthy sidecar and for an interruption. *)
Theorem failure_ends_with_a_line cl w :
  outcome py cl w = Ok 1 ->
  exists tr last,
    trace py cl w = (tr ++ [last])%list
    /\ (is_stderr last = true
        \/ last = not_healthy_line
        \/ last = interrupted_line).
Proof.
  every_run py cl w; intros H; try discriminate H;
    eexists _, _; (split; [reflexivity |]);
    unfold not_healthy_line, interrupted_line; simpl; tauto.
Qed.


(** X14: a command only calls the manager methods of its own branch, and
    no run makes more than two calls. *)
Theorem command_calls cl w :
  (forall m, In (Invoke m) (trace py cl w) ->
             may_call (given_command cl) m = true)
  /\ (List.length (invocations (trace py cl w)) <= 2)%nat.
Proof.
  every_run py cl w;
    (split;
     [ intros m; destruct vb; simpl; intros H;
       repeat (destruct H as [H | H]; [try discriminate H |]);
       try contradiction; inversion H; reflexivity
     | destruct vb; simpl; lia ]).
Qed.

(** X15: a line that begins with the success mark is only printed by a run
    that returns 0. *)
Theorem success_mark_means_success cl w f text :
  In (Print f text) (trace py cl w) ->
  prefix "✓" text = true ->
  outcome py cl w = Ok 0.
Proof.
  every_run py cl w; intros Hin Hp; destruct vb; simpl in Hin;
    repeat (destruct Hin as [Hin | Hin];
            [ try discriminate Hin; inversion Hin; subst;
              simpl in Hp; try discriminate Hp; reflexivity |]);
    contradiction.
Qed.
End Branches.

(** ** Concrete runs of the remaining branches *)

Lemma download_command_run :
  invocations (trace (scripted all_well) (bare download) 0%nat)
  = [Invoke DownloadSidecarBinary]
  /\ (outcome (scripted all_well) (bare download) 0%nat = Ok 0
      <-> exists path,
            fst (download_sidecar_binary (scripted_manager all_well) 0%nat)
            = Ok path)
  /\ (forall path w2,
        download_sidecar_binary (scripted_manager all_well) 0%nat
        = (Ok path, w2) ->
        run (scripted all_well) (bare download) 0%nat
        = (Ok 0,
           (w2,
            (prelude (bare download)
             ++ [Print stdout "Downloading Lexe sidecar binary...";
                 Invoke DownloadSidecarBinary;
                 Print stdout ("✓ Binary ready at: " ++ path)])%list))).
Proof.
  apply (download_command (scripted all_well) (bare download) 0%nat
           (scripted_manager all_well) 0%nat); reflexivity.
Defined.

Lemma node_info_command_run :
  invocations (trace (scripted all_well) (bare node_info) 0%nat)
  = [Invoke GetNodeInfo]
  /\ (outcome (scripted all_well) (bare node_info) 0%nat = Ok 0
      <-> exists info text,
            fst (get_node_info (scripted_manager all_well) 0%nat) = Ok info
            /\ json_dumps (scripted all_well) info = Ok text)
  /\ (forall info w2 text,
        get_node_info (scripted_manager all_well) 0%nat = (Ok info, w2) ->
        json_dumps (scripted all_well) info = Ok text ->
        run (scripted all_well) (bare node_info) 0%nat
        = (Ok 0,
           (w2,
            (prelude (bare node_info)
             ++ [Invoke GetNodeInfo;
                 Print stdout "Node Information:";
                 Print stdout text])%list))).
Proof.
  apply (node_info_command (scripted all_well) (bare node_info) 0%nat
           (scripted_manager all_well) 0%nat); reflexivity.
Defined.

Lemma node_info_failure_run :
  run (scripted unreachable) (bare node_info) 0%nat
  = (Ok 1,
     (1%nat,
      [Construct None 5393;
       Invoke GetNodeInfo;
       Print stderr "✗ Failed to get node info: connection refused"])).
Proof.
  apply (node_info_failure (scripted unreachable) (bare node_info) 0%nat
           (scripted_manager unreachable) 0%nat
           (mkExn ConnectionError "connection refused") 1%nat); reflexivity.
Defined.

Lemma node_info_dumps_failure_run :
  run (scripted_with not_serializable all_well) (bare node_info) 0%nat
  = (Ok 1,
     (1%nat,
      [Construct None 5393;
       Invoke GetNodeInfo;
       Print stdout "Node Information:";
       Print stderr
         "✗ Failed to get node info: Object of type bytes is not JSON serializable"])).
Proof.
  apply (node_info_dumps_failure (scripted_with not_serializable all_well)
           (bare node_info) 0%nat (scripted_manager all_well) 0%nat
           "{}" 1%nat
           (mkExn TypeError "Object of type bytes is not JSON serializable"));
    reflexivity.
Defined.

Lemma status_running_run :
  run (scripted unhealthy) (bare status) 0%nat
  = (Ok 0,
     (2%nat,
      [Construct None 5393;
       Invoke IsRunning;
       Invoke CheckHealth;
       Print stdout "Sidecar process: Running";
       Print stdout "Health status: Unhealthy";
       Print stdout "URL: http://localhost:5393"])).
Proof.
  apply (status_running (scripted unhealthy) (bare status) 0%nat
           (scripted_manager unhealthy) 0%nat 1%nat false 2%nat); reflexivity.
Defined.

Lemma status_exit_code_run :
  outcome (scripted unhealthy) (bare status) 0%nat = Ok 0
  <-> (exists w2,
         is_running (scripted_manager unhealthy) 0%nat = (Ok false, w2))
      \/ (exists w2 healthy w3,
            is_running (scripted_manager unhealthy) 0%nat = (Ok true, w2)
            /\ check_health (scripted_manager unhealthy) w2 = (Ok healthy, w3)).
Proof.
  apply (status_exit_code (scripted unhealthy) (bare status) 0%nat
           (scripted_manager unhealthy) 0%nat); reflexivity.
Defined.

Lemma start_output_run :
  run (scripted all_well) start_no_wait 0%nat
  = (Ok 0,
     (1%nat,
      [SetLevelDebug;
       Construct None 8080;
       Print stdout "Starting Lexe sidecar...";
       Invoke (StartSidecar false 30);
       Print stdout "✓ Sidecar started successfully on port 8080"])).
Proof.
  apply (start_output (scripted all_well) start_no_wait 0%nat
           (scripted_manager all_well) 0%nat eq_refl eq_refl eq_refl
           true 1%nat); reflexivity.
Defined.

Lemma exception_reported_run :
  outcome (scripted download_fails) (bare download) 0%nat = Ok 1
  /\ final_world (scripted download_fails) (bare download) 0%nat = 1%nat
  /\ exists tr c,
       trace (scripted download_fails) (bare download) 0%nat
       = (tr ++ [Invoke c; Print stderr "Error: no space left on device"])%list.
Proof.
  apply (exception_reported (scripted download_fails) (bare download) 0%nat
           (scripted_manager download_fails) 0%nat
           (mkExn OSError "no space left on device") 1%nat); reflexivity.
Defined.

Lemma keyboard_interrupt_reported_run :
  outcome (scripted download_interrupted) (bare download) 0%nat = Ok 1
  /\ final_world (scripted download_interrupted) (bare download) 0%nat = 1%nat
  /\ exists tr c,
       trace (scripted download_interrupted) (bare download) 0%nat
       = (tr ++ [Invoke c; interrupted_line])%list.
Proof.
  apply (keyboard_interrupt_reported (scripted download_interrupted)
           (bare download) 0%nat (scripted_manager download_interrupted) 0%nat
           (mkExn KeyboardInterrupt "") 1%nat); reflexivity.
Defined.

Lemma uncaught_exception_propagates_run :
  outcome (scripted stop_exits) (bare stop) 0%nat
  = Raise (mkExn SystemExit "2")
  /\ final_world (scripted stop_exits) (bare stop) 0%nat = 1%nat
  /\ exists tr c,
       trace (scripted stop_exits) (bare stop) 0%nat = (tr ++ [Invoke c])%list.
Proof.
  apply (uncaught_exception_propagates (scripted stop_exits) (bare stop) 0%nat
           (scripted_manager stop_exits) 0%nat
           (mkExn SystemExit "2") 1%nat); reflexivity.
Defined.

Lemma success_is_quiet_on_stderr_run :
  filter is_stderr (trace (scripted all_well) (bare stop) 0%nat) = [].
Proof.
  apply (success_is_quiet_on_stderr (scripted all_well) (bare stop) 0%nat);
    reflexivity.
Defined.

Lemma failure_ends_with_a_line_run :
  exists tr last,
    trace (scripted unhealthy) (bare health) 0%nat = (tr ++ [last])%list
    /\ (is_stderr last = true
        \/ last = not_healthy_line
        \/ last = interrupted_line).
Proof.
  apply (failure_ends_with_a_line (scripted unhealthy) (bare health) 0%nat);
    reflexivity.
Defined.

Lemma command_calls_run :
  (forall m, In (Invoke m) (trace (scripted all_well) (bare status) 0%nat) ->
             may_call status m = true)
  /\ (List.length (invocations (trace (scripted all_well) (bare status) 0%nat))
      <= 2)%nat.
Proof.
  apply (command_calls (scripted all_well) (bare status) 0%nat).
Defined.

Lemma success_mark_means_success_run :
  outcome (scripted all_well) (bare download) 0%nat = Ok 0.
Proof.
  apply (success_mark_means_success (scripted all_well) (bare download) 0%nat
           stdout "✓ Binary ready at: bin/lexe-sidecar").
  - simpl. tauto.
  - reflexivity.
Defined.
